(** * check_rust.py: the diagnostic runner, embedded and verified

    The script runs a fixed list of toolchain commands one after the other,
    prints what each one returned and ends with a pass/fail summary.

    Everything the script does to the outside is kept as data:
    - the host (process table, file system) is an abstract [World] with two
      observations, [subprocess_run] and [getcwd];
    - what the script does is a chronological list of [event]s: one [Print]
      per call of [print] (its argument, the trailing newline left implicit)
      and one [Exec] per call of [subprocess.run];
    - exceptions are values of a small state-and-error monad, so that the
      [try]/[except] of [run_command] is an operation of the model. *)

From Stdlib Require Import List String Ascii ZArith.
From Stdlib Require DecimalString DecimalPos DecimalZ.
Import ListNotations.
Open Scope string_scope.

(** ** Python values used by the script *)

(** [subprocess.CompletedProcess], with the three fields the script reads. *)
Record CompletedProcess : Type := mkCompleted {
  returncode : Z;
  stdout : string;
  stderr : string
}.

(** An instance of [Exception], kept as the text [str(e)] that the handler
    interpolates.  Launch failures are of this class ([FileNotFoundError],
    [PermissionError], [NotADirectoryError], [ValueError], ...), and so is
    the [UnicodeDecodeError] of a captured stream that is not text. *)
Definition exn : Type := string.

(** What one call of [subprocess.run] does: it returns a completed process,
    or it raises.  [LaunchError e] stands for every exception [e] that the
    call raises: the child could not be launched, or (see [text_run] below)
    it was launched and its captured output could not be decoded. *)
Inductive outcome : Type :=
| Completed (cp : CompletedProcess)
| LaunchError (e : exn).

Inductive event : Type :=
| Print (s : string)
| Exec (argv : list string).

Inductive result (A : Type) : Type :=
| Ok (a : A)
| Raise (e : exn).
Arguments Ok {A} a.
Arguments Raise {A} e.

(** ** String helpers standing for Python's operators *)

(** The one-character string ["\n"]. *)
Definition nl : string := String "010"%char EmptyString.

(** [s * n] on strings. *)
Fixpoint str_mul (s : string) (n : nat) : string :=
  match n with
  | O => EmptyString
  | S k => s ++ str_mul s k
  end.

(** [str(i)] for an [int]: decimal digits, a leading minus sign if negative. *)
Definition str_of_int (i : Z) : string :=
  DecimalString.NilZero.string_of_int (Z.to_int i).

(** Truth value of a [str]: false exactly for the empty string. *)
Definition truthy (s : string) : bool :=
  match s with
  | EmptyString => false
  | String _ _ => true
  end.

(** [' '.join(cmd)]. *)
Definition join_args (cmd : list string) : string := String.concat " " cmd.

(** The prints of a trace, in order. *)
Fixpoint printed (tr : list event) : list string :=
  match tr with
  | [] => []
  | Print s :: rest => s :: printed rest
  | Exec _ :: rest => printed rest
  end.

(** The argument vectors handed to [subprocess.run], in order. *)
Fixpoint execs (tr : list event) : list (list string) :=
  match tr with
  | [] => []
  | Print _ :: rest => execs rest
  | Exec argv :: rest => argv :: execs rest
  end.

(** ** The monad: world passing, an event log, and exceptions *)

Definition M (W A : Type) : Type := W -> result A * W * list event.

Definition ret {W A : Type} (a : A) : M W A := fun w => (Ok a, w, []).

Definition bind {W A B : Type} (m : M W A) (k : A -> M W B) : M W B :=
  fun w =>
    match m w with
    | (Ok a, w1, t1) =>
        match k a w1 with
        | (r, w2, t2) => (r, w2, (t1 ++ t2)%list)
        end
    | (Raise e, w1, t1) => (Raise e, w1, t1)
    end.

(** [try: body  except Exception as e: handler e]. *)
Definition try_except {W A : Type} (body : M W A) (handler : exn -> M W A)
  : M W A :=
  fun w =>
    match body w with
    | (Ok a, w1, t1) => (Ok a, w1, t1)
    | (Raise e, w1, t1) =>
        match handler e w1 with
        | (r, w2, t2) => (r, w2, (t1 ++ t2)%list)
        end
    end.

Definition print {W : Type} (s : string) : M W unit :=
  fun w => (Ok tt, w, [Print s]).

(** [if c: body] with no [else]. *)
Definition when {W : Type} (c : bool) (body : M W unit) : M W unit :=
  if c then body else ret tt.

Declare Scope py_scope.
Delimit Scope py_scope with py.
Notation "x <- c ;; k" := (bind c (fun x => k))
  (at level 61, c at next level, right associativity) : py_scope.
Notation "c ;; k" := (bind c (fun _ => k))
  (at level 61, right associativity) : py_scope.

(** Projections of a finished run. *)
Definition value {W A : Type} (r : result A * W * list event) : result A :=
  fst (fst r).
Definition after {W A : Type} (r : result A * W * list event) : W :=
  snd (fst r).
Definition emitted {W A : Type} (r : result A * W * list event) : list event :=
  snd r.

(** Exit status of the interpreter for a script whose last statement is the
    call [main()]: 0 when the call returns, 1 when an exception escapes. *)
Definition exit_status (r : result unit) : Z :=
  match r with
  | Ok _ => 0%Z
  | Raise _ => 1%Z
  end.

(** ** Closed forms used in the proofs

    [exit_ok] and [report] say, outcome by outcome, what [run_command] returns
    and logs; [run_command_eq] below proves that they agree with the code. *)

Definition exit_ok (o : outcome) : bool :=
  match o with
  | Completed cp => (returncode cp =? 0)%Z
  | LaunchError _ => false
  end.

Definition report_tail (o : outcome) : list event :=
  match o with
  | Completed cp =>
      (Print ("Return code: " ++ str_of_int (returncode cp))
       :: (if truthy (stdout cp)
           then [Print ("STDOUT:" ++ nl ++ stdout cp)] else [])
       ++ (if truthy (stderr cp)
           then [Print ("STDERR:" ++ nl ++ stderr cp)] else [])
       ++ [Print (str_mul "-" 50)])%list
  | LaunchError e =>
      [Print ("Error running command: " ++ e); Print (str_mul "-" 50)]
  end.

Definition report (cmd : list string) (desc : string) (o : outcome)
  : list event :=
  Print ("Running: " ++ desc) :: Print ("Command: " ++ join_args cmd)
  :: Exec cmd :: report_tail o.

(** The trace prints the lines [ls], in this order, as its last lines. *)
Definition ends_with_lines (ls : list string) (tr : list event) : Prop :=
  exists before, printed tr = (before ++ ls)%list.

(** The report that is expected of every call of [run_command]: description,
    command line, numeric exit code and separator are all printed. *)
Definition full_report (cmd : list string) (desc : string) (tr : list event)
  : Prop :=
  In (Print ("Running: " ++ desc)) tr /\
  In (Print ("Command: " ++ join_args cmd)) tr /\
  (exists rc : Z, In (Print ("Return code: " ++ str_of_int rc)) tr) /\
  In (Print (str_mul "-" 50)) tr.

(** Some print of the trace starts with [p]. *)
Definition prints_prefix (p : string) (tr : list event) : Prop :=
  exists s, In (Print s) tr /\ String.prefix p s = true.

(** ** A small host to run the script on

    The world is the number of children launched so far.  [true] and [false]
    behave as the coreutils do, [grumble] writes to both streams and exits
    with status 3, and nothing else is on the search path. *)

Definition DemoWorld : Type := nat.

Definition demo_run (cmd : list string) (w : DemoWorld) : outcome * DemoWorld :=
  match cmd with
  | ["true"] => (Completed (mkCompleted 0 "" ""), S w)
  | ["false"] => (Completed (mkCompleted 1 "" ""), S w)
  | ["grumble"] => (Completed (mkCompleted 3 "out" "err"), S w)
  | _ => (LaunchError "[Errno 2] No such file or directory", S w)
  end.

Definition demo_cwd (w : DemoWorld) : string := "/tmp".

(** The verdict of the runner on this host: only [true] passes. *)
Definition demo_ok (cmd : list string) : bool :=
  match cmd with
  | ["true"] => true
  | _ => false
  end.

(** ** Below subprocess.run: the child and its raw output

    [subprocess.run] is called with [capture_output=True, text=True]: the
    child's two streams are captured as bytes and then decoded, standard
    output first.  A stream that does not decode makes the call raise after
    the child has run.  [child] is what happened at the level of the process;
    [decode] is the strict decoding of the locale (with the translation of
    line ends that [text=True] implies), which depends on the host. *)

Inductive child : Type :=
| NotLaunched (e : exn)
| Exited (status : Z) (out err : list Byte.byte).

Definition text_outcome (decode : list Byte.byte -> exn + string) (c : child)
  : outcome :=
  match c with
  | NotLaunched e => LaunchError e
  | Exited status out err =>
      match decode out with
      | inl e => LaunchError e
      | inr so =>
          match decode err with
          | inl e => LaunchError e
          | inr se => Completed (mkCompleted status so se)
          end
      end
  end.

(** [subprocess.run] over a host that is given by what each child does. *)
Definition text_run {W : Type} (decode : list Byte.byte -> exn + string)
    (spawn : list string -> W -> child * W)
  : list string -> W -> outcome * W :=
  fun cmd w => (text_outcome decode (fst (spawn cmd w)), snd (spawn cmd w)).

(** The verdict that is expected of [run_command] for a child that exited
    with [status]: a boolean, true exactly when the status is zero. *)
Definition verdict_is_exit_zero (status : Z) (r : result bool) : Prop :=
  exists b : bool, r = Ok b /\ (b = true <-> status = 0%Z).

(** The small host again, by its children.  The locale is ASCII: a byte
    above 127 is refused.  [garble] exits with status 0 after writing the
    single byte 255. *)
Definition demo_decode (bs : list Byte.byte) : exn + string :=
  if forallb (fun b => N.ltb (Byte.to_N b) 128) bs
  then inr (string_of_list_byte bs)
  else inl "'ascii' codec can't decode byte: ordinal not in range(128)".

Definition demo_spawn (cmd : list string) (w : DemoWorld) : child * DemoWorld :=
  match cmd with
  | ["true"] => (Exited 0 [] [], S w)
  | ["false"] => (Exited 1 [] [], S w)
  | ["grumble"] =>
      (Exited 3 (list_byte_of_string "out") (list_byte_of_string "err"), S w)
  | ["garble"] => (Exited 0 [Byte.xff] [], S w)
  | _ => (NotLaunched "[Errno 2] No such file or directory", S w)
  end.

(** ** The output as text

    [print(s)] writes [s] and a newline.  [line n] is the line number [n]
    (from 0) of a text. *)

Fixpoint render (prints : list string) : string :=
  match prints with
  | [] => ""
  | s :: rest => s ++ nl ++ render rest
  end.

Fixpoint no_newline (s : string) : bool :=
  match s with
  | EmptyString => true
  | String c rest => if Ascii.eqb c "010" then false else no_newline rest
  end.

Fixpoint first_line (s : string) : string :=
  match s with
  | EmptyString => EmptyString
  | String c rest =>
      if Ascii.eqb c "010" then EmptyString else String c (first_line rest)
  end.

Fixpoint drop_line (s : string) : string :=
  match s with
  | EmptyString => EmptyString
  | String c rest => if Ascii.eqb c "010" then rest else drop_line rest
  end.

Definition line (n : nat) (s : string) : string :=
  first_line (Nat.iter n drop_line s).

(** ** The script *)

Section Runner.

Variable World : Type.
(** [subprocess.run(cmd, capture_output=True, text=True, cwd=...)]. *)
Variable subprocess_run : list string -> World -> outcome * World.
(** [os.getcwd()]. *)
Variable getcwd : World -> string.

Local Open Scope py_scope.

Definition run_child (cmd : list string) : M World CompletedProcess :=
  fun w =>
    match subprocess_run cmd w with
    | (Completed cp, w') => (Ok cp, w', [Exec cmd])
    | (LaunchError e, w') => (Raise e, w', [Exec cmd])
    end.

Definition os_getcwd : M World string :=
  fun w => (Ok (getcwd w), w, []).

Definition run_command (cmd : list string) (description : string)
  : M World bool :=
  print ("Running: " ++ description) ;;
  print ("Command: " ++ join_args cmd) ;;
  try_except
    (result <- run_child cmd ;;
     print ("Return code: " ++ str_of_int (returncode result)) ;;
     when (truthy (stdout result))
          (print ("STDOUT:" ++ nl ++ stdout result)) ;;
     when (truthy (stderr result))
          (print ("STDERR:" ++ nl ++ stderr result)) ;;
     print (str_mul "-" 50) ;;
     ret (returncode result =? 0)%Z)
    (fun e =>
       print ("Error running command: " ++ e) ;;
       print (str_mul "-" 50) ;;
       ret false).

(** The literal list of [main]. *)
Definition commands : list (list string * string) :=
  [ (["rustup"; "show"], "Check Rust toolchain");
    (["cargo"; "--version"], "Check Cargo version");
    (["cargo"; "check"; "--workspace"], "Cargo check workspace");
    (["cargo"; "test"; "-p"; "writemagic-shared"; "--lib"],
     "Test shared domain");
    (["cargo"; "test"; "-p"; "writemagic-ai"; "--lib"], "Test AI domain") ].

(** The first loop of [main]: [results] is the list built so far. *)
Fixpoint run_all (cmds : list (list string * string))
                 (results : list (string * bool))
  : M World (list (string * bool)) :=
  match cmds with
  | [] => ret results
  | (cmd, desc) :: rest =>
      success <- run_command cmd desc ;;
      run_all rest (results ++ [(desc, success)])%list
  end.

Definition status (success : bool) : string :=
  if success then "✓ PASS" else "✗ FAIL".

(** The second loop of [main]. *)
Fixpoint print_summary (results : list (string * bool)) : M World unit :=
  match results with
  | [] => ret tt
  | (desc, success) :: rest =>
      print (status success ++ ": " ++ desc) ;;
      print_summary rest
  end.

(** The body of [main], over the command list it declares. *)
Definition main_with (cmds : list (list string * string)) : M World unit :=
  print "WriteMagic Rust Environment Check" ;;
  print (str_mul "=" 40) ;;
  cwd <- os_getcwd ;;
  print ("Current working directory: " ++ cwd) ;;
  print "Target directory: /home/niko/writemagic" ;;
  print (str_mul "-" 50) ;;
  results <- run_all cmds [] ;;
  print (nl ++ "SUMMARY:") ;;
  print (str_mul "=" 40) ;;
  print_summary results.

Definition main : M World unit := main_with commands.

(** Closed form of the second loop: one line per result. *)
Definition summary_line (r : string * bool) : event :=
  Print (status (snd r) ++ ": " ++ fst r).

(** Closed form of the first loop: results, final world and trace. *)
Fixpoint sweep (cmds : list (list string * string)) (w : World)
  : list (string * bool) * World * list event :=
  match cmds with
  | [] => ([], w, [])
  | (cmd, desc) :: rest =>
      let r := subprocess_run cmd w in
      let s := sweep rest (snd r) in
      ((desc, exit_ok (fst r)) :: fst (fst s),
       snd (fst s),
       (report cmd desc (fst r) ++ snd s)%list)
  end.

Definition preamble (w : World) : list event :=
  [ Print "WriteMagic Rust Environment Check";
    Print (str_mul "=" 40);
    Print ("Current working directory: " ++ getcwd w);
    Print "Target directory: /home/niko/writemagic";
    Print (str_mul "-" 50) ].

(** Every print of [run_command] opens with a fixed word; a hypothesis that
    such a print starts with another word is absurd. *)
Ltac absurd_prefix H :=
  match type of H with
  | Print _ = Print _ => injection H as <-
  | _ => discriminate H
  end;
  match goal with
  | Hp : String.prefix _ _ = true |- _ => simpl in Hp; discriminate Hp
  end.

(** ** Basic facts *)

Lemma printed_app (t1 t2 : list event) :
  printed (t1 ++ t2) = (printed t1 ++ printed t2)%list.
Proof.
  induction t1 as [|[s|argv] t1 IH]; simpl; [reflexivity | f_equal | ]; exact IH.
Qed.

Lemma execs_app (t1 t2 : list event) :
  execs (t1 ++ t2) = (execs t1 ++ execs t2)%list.
Proof.
  induction t1 as [|[s|argv] t1 IH]; simpl; [reflexivity | | f_equal]; exact IH.
Qed.

Lemma execs_report cmd desc o : execs (report cmd desc o) = [cmd].
Proof.
  destruct o as [[rc out err]|e]; simpl; [|reflexivity].
  destruct (truthy out), (truthy err); reflexivity.
Qed.

(** [run_command], outcome by outcome. *)
Lemma run_command_eq cmd desc w :
  run_command cmd desc w =
    (Ok (exit_ok (fst (subprocess_run cmd w))),
     snd (subprocess_run cmd w),
     report cmd desc (fst (subprocess_run cmd w))).
Proof.
  unfold run_command, bind, try_except, run_child, print, report.
  destruct (subprocess_run cmd w) as [[[rc out err]|e] w']; cbn [fst snd].
  - unfold when, ret, report_tail; cbn [returncode stdout stderr exit_ok].
    destruct (truthy out), (truthy err); reflexivity.
  - reflexivity.
Qed.

Lemma print_summary_eq results w :
  print_summary results w = (Ok tt, w, map summary_line results).
Proof.
  induction results as [|[desc success] rest IH]; [reflexivity|].
  cbn [print_summary]. unfold bind, print. rewrite IH. reflexivity.
Qed.

(** The first loop, for any list built so far. *)
Lemma run_all_eq cmds : forall acc w,
  run_all cmds acc w =
    (Ok (acc ++ fst (fst (sweep cmds w)))%list,
     snd (fst (sweep cmds w)),
     snd (sweep cmds w)).
Proof.
  induction cmds as [|[cmd desc] rest IH]; intros acc w.
  - cbn. rewrite app_nil_r. reflexivity.
  - cbn [run_all sweep]. unfold bind. rewrite run_command_eq, IH.
    cbn [fst snd]. rewrite <- app_assoc. reflexivity.
Qed.

Lemma sweep_length cmds : forall w,
  List.length (fst (fst (sweep cmds w))) = List.length cmds.
Proof.
  induction cmds as [|[cmd desc] rest IH]; intros w; cbn; [|rewrite IH];
    reflexivity.
Qed.

Lemma sweep_descriptions cmds : forall w,
  map fst (fst (fst (sweep cmds w))) = map snd cmds.
Proof.
  induction cmds as [|[cmd desc] rest IH]; intros w; cbn; [|rewrite IH];
    reflexivity.
Qed.

Lemma sweep_execs cmds : forall w,
  execs (snd (sweep cmds w)) = map fst cmds.
Proof.
  induction cmds as [|[cmd desc] rest IH]; intros w; [reflexivity|].
  cbn [sweep snd map fst]. rewrite execs_app, execs_report, IH. reflexivity.
Qed.

Lemma execs_summary results : execs (map summary_line results) = [].
Proof. induction results as [|r rest IH]; [reflexivity | exact IH]. Qed.

Lemma printed_summary results :
  printed (map summary_line results)
    = map (fun r => status (snd r) ++ ": " ++ fst r) results.
Proof.
  induction results as [|r rest IH]; [reflexivity|].
  cbn [map printed summary_line]. rewrite IH. reflexivity.
Qed.

(** [main], in closed form. *)
Lemma main_with_eq cmds w :
  main_with cmds w =
    (Ok tt,
     snd (fst (sweep cmds w)),
     (preamble w ++ snd (sweep cmds w)
      ++ [Print (nl ++ "SUMMARY:")%string; Print (str_mul "=" 40)]
      ++ map summary_line (fst (fst (sweep cmds w))))%list).
Proof.
  unfold main_with, bind, print, os_getcwd.
  rewrite run_all_eq, print_summary_eq. reflexivity.
Qed.

(** ** run_command *)

(** When [subprocess.run] returns a completed process, [run_command]
    returns [True] if and only if its [returncode] is zero; a nonzero code
    gives [False] whatever the two captured streams hold (the completed
    process [cp] is arbitrary). *)
Theorem run_command_true_iff_exit_zero cmd desc w cp w' :
  subprocess_run cmd w = (Completed cp, w') ->
  exists b : bool,
    value (run_command cmd desc w) = Ok b /\
    (b = true <-> returncode cp = 0%Z) /\
    (returncode cp <> 0%Z -> b = false).
Proof.
  intros Hrun. exists (returncode cp =? 0)%Z.
  rewrite run_command_eq, Hrun. cbn.
  split; [reflexivity | split].
  - apply Z.eqb_eq.
  - apply Z.eqb_neq.
Qed.

(** C2. When the launch of the child fails, the exception is caught inside
    [run_command]: the error message is printed, the call returns [False],
    and no exception leaves the call. *)
Theorem run_command_launch_failure cmd desc w e w' :
  subprocess_run cmd w = (LaunchError e, w') ->
  value (run_command cmd desc w) = Ok false /\
  In (Print ("Error running command: " ++ e))
     (emitted (run_command cmd desc w)) /\
  forall e', value (run_command cmd desc w) <> Raise e'.
Proof.
  clear getcwd.
  intros Hrun. rewrite run_command_eq, Hrun. cbn [value emitted fst snd exit_ok].
  split; [reflexivity | split].
  - unfold report, report_tail. simpl. tauto.
  - intros e' H. discriminate H.
Qed.

(** ** main *)

(** C3. For a command list of any length, the first loop of [main] calls
    [run_command] (hence [subprocess.run]) once per entry, in declaration
    order, whatever the earlier commands returned; the results list has the
    length of the command list and carries the descriptions in the same
    order.  The whole of [main] launches these children and no other. *)
Theorem run_all_one_result_per_command cmds w :
  (exists results,
     value (run_all cmds [] w) = Ok results /\
     List.length results = List.length cmds /\
     map fst results = map snd cmds /\
     execs (emitted (run_all cmds [] w)) = map fst cmds) /\
  execs (emitted (main_with cmds w)) = map fst cmds.
Proof.
  split.
  - exists (fst (fst (sweep cmds w))).
    rewrite run_all_eq. cbn [value emitted fst snd app].
    split; [reflexivity | split; [apply sweep_length | split]].
    + apply sweep_descriptions.
    + apply sweep_execs.
  - rewrite main_with_eq. cbn [emitted snd].
    rewrite !execs_app, sweep_execs, execs_summary.
    unfold preamble. cbn [execs app]. apply app_nil_r.
Qed.

(** C4. Whatever the commands do (all of them may fail), [main] returns
    normally with no value, and the interpreter exits with status 0. *)
Theorem main_returns_and_exits_zero :
  (forall cmds w, value (main_with cmds w) = Ok tt /\
                  exit_status (value (main_with cmds w)) = 0%Z) /\
  (forall w, value (main w) = Ok tt /\ exit_status (value (main w)) = 0%Z).
Proof.
  assert (H : forall cmds w, value (main_with cmds w) = Ok tt /\
                             exit_status (value (main_with cmds w)) = 0%Z).
  { intros cmds w. rewrite main_with_eq. split; reflexivity. }
  split; [exact H | intros w; apply H].
Qed.

(** ** What run_command prints *)

(** C5 (amended). On every outcome [run_command] prints the description,
    the command line and the separator.  The numeric exit code, and each
    captured stream that is not empty, are printed when [subprocess.run]
    returns; when [subprocess.run] raises (the child could not be launched,
    or its captured output could not be decoded) the error message is
    printed in their place and no print starting with "Return code: "
    is made. *)
Theorem run_command_report_by_outcome cmd desc w :
  let tr := emitted (run_command cmd desc w) in
  In (Print ("Running: " ++ desc)) tr /\
  In (Print ("Command: " ++ join_args cmd)) tr /\
  In (Print (str_mul "-" 50)) tr /\
  match fst (subprocess_run cmd w) with
  | Completed cp =>
      In (Print ("Return code: " ++ str_of_int (returncode cp))) tr /\
      (stdout cp <> "" -> In (Print ("STDOUT:" ++ nl ++ stdout cp)) tr) /\
      (stderr cp <> "" -> In (Print ("STDERR:" ++ nl ++ stderr cp)) tr)
  | LaunchError e =>
      In (Print ("Error running command: " ++ e)) tr /\
      ~ prints_prefix "Return code: " tr
  end.
Proof.
  clear getcwd.
  intros tr. subst tr. rewrite run_command_eq.
  destruct (subprocess_run cmd w) as [[[rc out err]|e] w'];
    cbn [emitted fst snd returncode stdout stderr]; unfold report, report_tail;
    cbn [returncode stdout stderr].
  - destruct out as [|a out], err as [|b err]; cbn [truthy app In];
      repeat split; try tauto; intros H; now elim H.
  - cbn [In]. repeat split; try tauto.
    intros [s [Hin Hp]]. cbn [In] in Hin.
    destruct Hin as [H|[H|[H|[H|[H|[]]]]]]; absurd_prefix H.
Qed.

(** C8. Two calls of [run_command] with the same command and description,
    made in two states of the host in which the child behaves the same,
    return the same boolean (and print the same lines): the result is a
    function of the inputs and of the outcome of the child. *)
Theorem run_command_deterministic cmd desc w1 w2 :
  fst (subprocess_run cmd w1) = fst (subprocess_run cmd w2) ->
  value (run_command cmd desc w1) = value (run_command cmd desc w2) /\
  emitted (run_command cmd desc w1) = emitted (run_command cmd desc w2).
Proof.
  intros Hsame. rewrite !run_command_eq. cbn [value emitted fst snd].
  rewrite Hsame. split; reflexivity.
Qed.

(** C9. On both paths the last thing [run_command] does before returning is
    to print the separator, a line of 50 dashes, and it prints it once: no
    earlier print of the call is that line. *)
Theorem run_command_ends_with_separator cmd desc w :
  exists before,
    emitted (run_command cmd desc w)
      = (before ++ [Print (str_mul "-" 50)])%list /\
    ~ In (Print (str_mul "-" 50)) before /\
    str_mul "-" 50 = "--------------------------------------------------".
Proof.
  rewrite run_command_eq.
  destruct (subprocess_run cmd w) as [[[rc out err]|e] w'];
    cbn [emitted fst snd]; unfold report, report_tail;
    cbn [returncode stdout stderr].
  - exists ([Print ("Running: " ++ desc); Print ("Command: " ++ join_args cmd);
             Exec cmd; Print ("Return code: " ++ str_of_int rc)]
            ++ (if truthy out then [Print ("STDOUT:" ++ nl ++ out)] else [])
            ++ (if truthy err then [Print ("STDERR:" ++ nl ++ err)] else []))%list.
    split; [|split; [|reflexivity]].
    + cbn [app]. rewrite <- !app_assoc. reflexivity.
    + destruct out as [|a out], err as [|b err]; cbn [truthy app In];
        intros H; repeat (destruct H as [H|H]; [simpl in H; discriminate H|]);
        exact H.
  - exists [Print ("Running: " ++ desc); Print ("Command: " ++ join_args cmd);
            Exec cmd; Print ("Error running command: " ++ e)].
    split; [reflexivity | split; [|reflexivity]].
    cbn [In]. intros H.
    repeat (destruct H as [H|H]; [simpl in H; discriminate H|]). exact H.
Qed.


(** ** The summary and the command list *)

(** C6 (amended). On a host where [true] exits with 0 and [false] with a
    nonzero code, [main] over the list [(["true"], "A"); (["false"], "B")]
    ends its output with the two summary lines "✓ PASS: A" and "✗ FAIL: B",
    in this order, and the process exits with status 0. *)
Theorem summary_of_true_then_false w :
  (forall w0, exists cp,
      fst (subprocess_run ["true"] w0) = Completed cp /\
      returncode cp = 0%Z) ->
  (forall w0, exists cp,
      fst (subprocess_run ["false"] w0) = Completed cp /\
      returncode cp <> 0%Z) ->
  ends_with_lines ["✓ PASS: A"; "✗ FAIL: B"]
    (emitted (main_with [(["true"], "A"); (["false"], "B")] w)) /\
  exit_status (value (main_with [(["true"], "A"); (["false"], "B")] w)) = 0%Z.
Proof.
  intros Htrue Hfalse. rewrite main_with_eq. cbn [value emitted fst snd].
  split; [|reflexivity].
  cbn [sweep fst snd].
  destruct (Htrue w) as [cp1 [E1 Z1]].
  destruct (Hfalse (snd (subprocess_run ["true"] w))) as [cp2 [E2 Z2]].
  rewrite E1, E2. cbn [exit_ok]. rewrite Z1.
  apply Z.eqb_neq in Z2. rewrite Z2.
  unfold ends_with_lines. rewrite !printed_app, printed_summary.
  cbn [map fst snd status Z.eqb]. rewrite !app_assoc.
  eexists. reflexivity.
Qed.

(** C7. [main] declares five commands, in this order: the toolchain show,
    the version check, the check of the whole workspace, and the unit tests
    of two packages.  The list is a constant of the script, and every run of
    [main] executes exactly these argument vectors, in this order. *)
Theorem commands_are_the_five_checks :
  List.length commands = 5 /\
  map fst commands =
    [ ["rustup"; "show"];
      ["cargo"; "--version"];
      ["cargo"; "check"; "--workspace"];
      ["cargo"; "test"; "-p"; "writemagic-shared"; "--lib"];
      ["cargo"; "test"; "-p"; "writemagic-ai"; "--lib"] ] /\
  map snd commands =
    [ "Check Rust toolchain"; "Check Cargo version"; "Cargo check workspace";
      "Test shared domain"; "Test AI domain" ] /\
  forall w, execs (emitted (main w)) = map fst commands.
Proof.
  split; [reflexivity | split; [reflexivity | split; [reflexivity|]]].
  intros w. unfold main. rewrite main_with_eq. cbn [emitted snd].
  rewrite !execs_app, sweep_execs, execs_summary. reflexivity.
Qed.

(** ** Further properties of the runner *)

(** Decimal printing loses nothing: two integers that print alike are
    equal. *)
Lemma str_of_int_inj (a b : Z) : str_of_int a = str_of_int b -> a = b.
Proof.
  unfold str_of_int. intros H.
  assert (Hnil : forall z, Z.to_int z <> Decimal.Pos Decimal.Nil /\
                           Z.to_int z <> Decimal.Neg Decimal.Nil).
  { intros [|p|p]; cbn; split; try discriminate; intros [= E];
      exact (DecimalPos.Unsigned.to_uint_nonnil p E). }
  apply (f_equal DecimalString.NilZero.int_of_string) in H.
  rewrite !DecimalString.NilZero.isi in H by apply Hnil.
  injection H as H. exact (DecimalZ.to_int_inj a b H).
Qed.

(** [run_command] announces the command, then launches it once: the first
    three events of a call are the two header prints and the launch of
    [cmd], nothing else is launched afterwards on any outcome (a failed
    launch is not tried again), and the host is left as the child left it. *)
Theorem run_command_announces_then_launches_once cmd desc w :
  exists rest,
    emitted (run_command cmd desc w)
      = Print ("Running: " ++ desc) :: Print ("Command: " ++ join_args cmd)
        :: Exec cmd :: rest /\
    execs rest = [] /\
    after (run_command cmd desc w) = snd (subprocess_run cmd w).
Proof.
  rewrite run_command_eq.
  exists (report_tail (fst (subprocess_run cmd w))).
  split; [reflexivity | split; [|reflexivity]].
  destruct (fst (subprocess_run cmd w)) as [[rc out err]|e]; [|reflexivity].
  cbn [report_tail returncode stdout stderr].
  destruct (truthy out), (truthy err); reflexivity.
Qed.

(** When [subprocess.run] returns, the only call of [print] whose argument
    has the form "Return code: <n>" carries the exit code of that child, in
    decimal. *)
Theorem return_code_line_identifies_exit_code cmd desc w cp w' rc :
  subprocess_run cmd w = (Completed cp, w') ->
  (In (Print ("Return code: " ++ str_of_int rc))
      (emitted (run_command cmd desc w))
   <-> rc = returncode cp).
Proof.
  intros Hrun. rewrite run_command_eq, Hrun.
  destruct cp as [c out err].
  cbn [emitted fst snd]; unfold report, report_tail;
    cbn [returncode stdout stderr].
  split.
  - destruct out as [|a out], err as [|b err]; cbn [truthy app In];
      intros H;
      repeat (destruct H as [H|H];
              [simpl in H; first [discriminate H
                                 | injection H as H; symmetry;
                                   exact (str_of_int_inj _ _ H)] |]);
      now elim H.
  - intros ->. cbn [In]. do 3 right. left. reflexivity.
Qed.

(** The first loop composes: running the list [c1 ++ c2] is running [c1]
    and then [c2], started from the results and in the host state that [c1]
    left, with the two traces one after the other. *)
Theorem run_all_app c1 : forall c2 acc w,
  run_all (c1 ++ c2) acc w
    = bind (run_all c1 acc) (fun results => run_all c2 results) w.
Proof.
  induction c1 as [|[cmd desc] rest IH]; intros c2 acc w.
  - cbn [app run_all]. unfold bind, ret.
    destruct (run_all c2 acc w) as [[r w2] t2]. reflexivity.
  - cbn [app run_all]. unfold bind at 1 2 3. rewrite run_command_eq.
    rewrite IH. unfold bind.
    destruct (run_all rest _ _) as [[[r1|e1] w1] t1]; [|reflexivity].
    destruct (run_all c2 r1 w1) as [[r w2] t2].
    rewrite app_assoc. reflexivity.
Qed.

Lemma sweep_world cmds : forall w,
  snd (fst (sweep cmds w))
    = fold_left (fun w0 c => snd (subprocess_run (fst c) w0)) cmds w.
Proof.
  induction cmds as [|[cmd desc] rest IH]; intros w; [reflexivity|].
  cbn [sweep fst snd fold_left]. apply IH.
Qed.

(** The commands run one after the other on the same host: the state in
    which [main] leaves the host is obtained by letting each child, in
    declaration order, act on the state left by the one before; printing
    and the working-directory query change nothing. *)
Theorem main_threads_the_host cmds w :
  after (main_with cmds w)
    = fold_left (fun w0 c => snd (subprocess_run (fst c) w0)) cmds w.
Proof.
  rewrite main_with_eq. cbn [after fst snd]. apply sweep_world.
Qed.

Lemma sweep_results_of_verdict (ok : list string -> bool) cmds :
  (forall cmd desc w0, In cmd (map fst cmds) ->
     value (run_command cmd desc w0) = Ok (ok cmd)) ->
  forall w,
    fst (fst (sweep cmds w)) = map (fun c => (snd c, ok (fst c))) cmds.
Proof.
  induction cmds as [|[cmd desc] rest IH]; intros Hok w; [reflexivity|].
  cbn [sweep fst snd map]. f_equal.
  - f_equal. specialize (Hok cmd desc w (or_introl eq_refl)).
    rewrite run_command_eq in Hok. cbn [value fst] in Hok.
    injection Hok as Hok. exact Hok.
  - apply IH. intros c d w0 Hin. apply Hok. right. exact Hin.
Qed.

(** On a host where the verdict of [run_command] on each listed command
    does not depend on the moment it is run ([ok cmd] is that verdict), the
    output of [main] ends with the summary header, the rule, and one line
    per command in declaration order: "✓ PASS: <description>" when the
    verdict is true and "✗ FAIL: <description>" when it is false.  Repeated
    descriptions give repeated lines. *)
Theorem summary_marks_each_command (ok : list string -> bool) cmds w :
  (forall cmd desc w0, In cmd (map fst cmds) ->
     value (run_command cmd desc w0) = Ok (ok cmd)) ->
  ends_with_lines
    ((nl ++ "SUMMARY:") :: str_mul "=" 40
     :: map (fun c => (if ok (fst c) then "✓ PASS" else "✗ FAIL")
                        ++ ": " ++ snd c) cmds)
    (emitted (main_with cmds w)).
Proof.
  intros Hok. rewrite main_with_eq. cbn [emitted snd].
  rewrite (sweep_results_of_verdict ok cmds Hok).
  unfold ends_with_lines.
  exists (printed (preamble w) ++ printed (snd (sweep cmds w)))%list.
  rewrite !printed_app, printed_summary, map_map, <- app_assoc.
  reflexivity.
Qed.

(** [main] works in three phases.  The banner comes first, then the
    commands are run, then the summary is printed: every child is launched
    before the summary header, none after it, and below the header come the
    rule and one line per command. *)
Theorem main_runs_then_summarises cmds w :
  exists runs tail,
    emitted (main_with cmds w)
      = (preamble w ++ runs ++ Print (nl ++ "SUMMARY:")%string :: tail)%list /\
    execs (preamble w) = [] /\
    execs runs = map fst cmds /\
    execs tail = [] /\
    List.length (printed tail) = S (List.length cmds).
Proof.
  exists (snd (sweep cmds w)),
         (Print (str_mul "=" 40)
          :: map summary_line (fst (fst (sweep cmds w)))).
  rewrite main_with_eq. cbn [emitted snd].
  split; [reflexivity | split; [reflexivity | split; [apply sweep_execs|]]].
  cbn [execs printed List.length]. rewrite execs_summary, printed_summary.
  split; [reflexivity|]. rewrite length_map, sweep_length. reflexivity.
Qed.

Lemma main_with_execs cmds w :
  execs (emitted (main_with cmds w)) = map fst cmds.
Proof.
  rewrite main_with_eq. cbn [emitted snd].
  rewrite !execs_app, sweep_execs, execs_summary.
  unfold preamble. cbn [execs app]. apply app_nil_r.
Qed.

Lemma sweep_ignores_descriptions cmds1 : forall cmds2 w,
  map fst cmds1 = map fst cmds2 ->
  map snd (fst (fst (sweep cmds1 w))) = map snd (fst (fst (sweep cmds2 w))) /\
  snd (fst (sweep cmds1 w)) = snd (fst (sweep cmds2 w)).
Proof.
  induction cmds1 as [|[cmd d1] rest1 IH]; intros [|[cmd2 d2] rest2] w Hsame;
    try discriminate Hsame.
  - split; reflexivity.
  - cbn [map fst] in Hsame. injection Hsame as <- Hrest.
    cbn [sweep fst snd map].
    destruct (IH rest2 (snd (subprocess_run cmd w)) Hrest) as [Hres Hw].
    rewrite Hres, Hw. split; reflexivity.
Qed.

(** Descriptions are for display only.  Two command lists with the same
    argument vectors, whatever their descriptions, launch the same
    children, collect the same pass/fail verdicts in the same order, and
    leave the host in the same state. *)
Theorem descriptions_are_display_only cmds1 cmds2 w :
  map fst cmds1 = map fst cmds2 ->
  execs (emitted (main_with cmds1 w)) = execs (emitted (main_with cmds2 w)) /\
  after (main_with cmds1 w) = after (main_with cmds2 w) /\
  exists r1 r2,
    value (run_all cmds1 [] w) = Ok r1 /\
    value (run_all cmds2 [] w) = Ok r2 /\
    map snd r1 = map snd r2.
Proof.
  intros Hsame.
  destruct (sweep_ignores_descriptions cmds1 cmds2 w Hsame) as [Hres Hw].
  split; [|split].
  - rewrite !main_with_execs. exact Hsame.
  - rewrite !main_with_eq. cbn [after fst snd]. exact Hw.
  - exists (fst (fst (sweep cmds1 w))), (fst (fst (sweep cmds2 w))).
    rewrite !run_all_eq. cbn [value fst app].
    split; [reflexivity | split; [reflexivity | exact Hres]].
Qed.

(** ** The exit code in the text of the output *)

Lemma first_line_cut s rest :
  no_newline s = true -> first_line (s ++ nl ++ rest) = s.
Proof.
  induction s as [|c s IH]; cbn; [reflexivity|].
  destruct (Ascii.eqb c "010"); [discriminate|].
  intros H. f_equal. exact (IH H).
Qed.

Lemma drop_line_cut s rest :
  no_newline s = true -> drop_line (s ++ nl ++ rest) = rest.
Proof.
  induction s as [|c s IH]; cbn; [reflexivity|].
  destruct (Ascii.eqb c "010"); [discriminate | exact IH].
Qed.

Lemma no_newline_digits d :
  no_newline (DecimalString.NilEmpty.string_of_uint d) = true.
Proof. induction d; cbn; try reflexivity; assumption. Qed.

Lemma no_newline_str_of_int z : no_newline (str_of_int z) = true.
Proof.
  unfold str_of_int, DecimalString.NilZero.string_of_int,
    DecimalString.NilZero.string_of_uint.
  destruct (Z.to_int z) as [d|d]; destruct d; cbn; try reflexivity;
    apply no_newline_digits.
Qed.

(** When neither the description nor the arguments hold a newline and
    [subprocess.run] returned, the text that [run_command] writes starts with
    the lines "Running: <description>", "Command: <command line>" and
    "Return code: <n>", where <n> is the exit code of the child in decimal.
    The exit code can be read off the third line, whatever the child wrote
    to its streams (they are printed below it). *)
Theorem exit_code_is_on_the_third_line cmd desc w cp w' :
  no_newline desc = true ->
  no_newline (join_args cmd) = true ->
  subprocess_run cmd w = (Completed cp, w') ->
  line 0 (render (printed (emitted (run_command cmd desc w))))
    = "Running: " ++ desc /\
  line 1 (render (printed (emitted (run_command cmd desc w))))
    = "Command: " ++ join_args cmd /\
  line 2 (render (printed (emitted (run_command cmd desc w))))
    = "Return code: " ++ str_of_int (returncode cp) /\
  forall rc,
    line 2 (render (printed (emitted (run_command cmd desc w))))
      = "Return code: " ++ str_of_int rc ->
    rc = returncode cp.
Proof.
  intros Hdesc Hcmd Hrun. rewrite run_command_eq, Hrun.
  cbn [emitted fst snd report report_tail printed render].
  assert (H0 : no_newline ("Running: " ++ desc) = true) by exact Hdesc.
  assert (H1 : no_newline ("Command: " ++ join_args cmd) = true) by exact Hcmd.
  assert (H2 : no_newline ("Return code: " ++ str_of_int (returncode cp))
               = true) by exact (no_newline_str_of_int (returncode cp)).
  unfold line. cbn [Nat.iter nat_rect].
  rewrite !(drop_line_cut _ _ H0), !(drop_line_cut _ _ H1).
  rewrite (first_line_cut _ _ H0), (first_line_cut _ _ H1),
    (first_line_cut _ _ H2).
  split; [reflexivity | split; [reflexivity | split; [reflexivity|]]].
  intros rc H. cbn in H. injection H as H. symmetry.
  exact (str_of_int_inj _ _ H).
Qed.

End Runner.

(** ** run_command over the children of the host *)

Section TextHost.

Variable World : Type.
Variable decode : list Byte.byte -> exn + string.
Variable spawn : list string -> World -> child * World.

Lemma text_run_launched cmd w status out err w' :
  spawn cmd w = (Exited status out err, w') ->
  fst (text_run decode spawn cmd w)
    = match decode out, decode err with
      | inr so, inr se => Completed (mkCompleted status so se)
      | inl e, _ => LaunchError e
      | inr _, inl e => LaunchError e
      end.
Proof.
  intros Hspawn. unfold text_run. rewrite Hspawn. cbn [fst text_outcome].
  destruct (decode out), (decode err); reflexivity.
Qed.

(** C1 (amended). For a child that was launched and exited with [status]:
    [run_command] returns a boolean, and [True] only if the status is zero,
    so a nonzero status gives [False] whatever the child wrote; when
    moreover both captured streams decode (so that [subprocess.run]
    returns), the boolean is [True] if and only if the status is zero. *)
Theorem run_command_verdict_of_launched_child cmd desc w status out err w' :
  spawn cmd w = (Exited status out err, w') ->
  exists b : bool,
    value (run_command World (text_run decode spawn) cmd desc w) = Ok b /\
    (b = true -> status = 0%Z) /\
    (status <> 0%Z -> b = false) /\
    (forall so se, decode out = inr so -> decode err = inr se ->
       (b = true <-> status = 0%Z)).
Proof.
  intros Hspawn. rewrite run_command_eq. cbn [value fst].
  rewrite (text_run_launched cmd w status out err w' Hspawn).
  destruct (decode out) as [e1|so], (decode err) as [e2|se]; cbn [exit_ok].
  1-3: exists false; split; [reflexivity | split; [discriminate | split]];
       [reflexivity | intros so' se' H1 H2; discriminate].
  exists (status =? 0)%Z. cbn [returncode].
  split; [reflexivity | split; [apply Z.eqb_eq | split]].
  - apply Z.eqb_neq.
  - intros _ _ _ _. apply Z.eqb_eq.
Qed.

End TextHost.

(** ** The script on the small host *)

Lemma run_command_true_iff_exit_zero_demo :
  demo_run ["grumble"] 0 = (Completed (mkCompleted 3 "out" "err"), 1) /\
  exists b : bool,
    value (run_command DemoWorld demo_run ["grumble"] "Grumble" 0) = Ok b /\
    (b = true <-> 3 = 0)%Z /\
    (3 <> 0 -> b = false)%Z.
Proof.
  split; [reflexivity|].
  apply (run_command_true_iff_exit_zero DemoWorld demo_run ["grumble"]
           "Grumble" 0 (mkCompleted 3 "out" "err") 1).
  reflexivity.
Defined.

Lemma run_command_launch_failure_demo :
  demo_run ["no-such-binary-xyz"] 0
    = (LaunchError "[Errno 2] No such file or directory", 1) /\
  value (run_command DemoWorld demo_run ["no-such-binary-xyz"] "C" 0)
    = Ok false /\
  In (Print "Error running command: [Errno 2] No such file or directory")
     (emitted (run_command DemoWorld demo_run ["no-such-binary-xyz"] "C" 0)) /\
  forall e',
    value (run_command DemoWorld demo_run ["no-such-binary-xyz"] "C" 0)
      <> Raise e'.
Proof.
  split; [reflexivity|].
  apply (run_command_launch_failure DemoWorld demo_run ["no-such-binary-xyz"]
           "C" 0 "[Errno 2] No such file or directory" 1).
  reflexivity.
Defined.

Lemma run_command_report_by_outcome_demo :
  In (Print "Running: Grumble")
     (emitted (run_command DemoWorld demo_run ["grumble"] "Grumble" 0)) /\
  In (Print "Command: grumble")
     (emitted (run_command DemoWorld demo_run ["grumble"] "Grumble" 0)) /\
  In (Print (str_mul "-" 50))
     (emitted (run_command DemoWorld demo_run ["grumble"] "Grumble" 0)) /\
  In (Print "Return code: 3")
     (emitted (run_command DemoWorld demo_run ["grumble"] "Grumble" 0)) /\
  ("out" <> "" ->
   In (Print ("STDOUT:" ++ nl ++ "out"))
      (emitted (run_command DemoWorld demo_run ["grumble"] "Grumble" 0))) /\
  ("err" <> "" ->
   In (Print ("STDERR:" ++ nl ++ "err"))
      (emitted (run_command DemoWorld demo_run ["grumble"] "Grumble" 0))).
Proof.
  exact (run_command_report_by_outcome DemoWorld demo_run ["grumble"]
           "Grumble" 0).
Defined.

Lemma run_command_deterministic_demo :
  fst (demo_run ["false"] 0) = fst (demo_run ["false"] 7) /\
  value (run_command DemoWorld demo_run ["false"] "B" 0)
    = value (run_command DemoWorld demo_run ["false"] "B" 7) /\
  emitted (run_command DemoWorld demo_run ["false"] "B" 0)
    = emitted (run_command DemoWorld demo_run ["false"] "B" 7).
Proof.
  split; [reflexivity|].
  apply (run_command_deterministic DemoWorld demo_run ["false"] "B" 0 7).
  reflexivity.
Defined.


Lemma summary_of_true_then_false_demo :
  ends_with_lines ["✓ PASS: A"; "✗ FAIL: B"]
    (emitted (main_with DemoWorld demo_run demo_cwd
                [(["true"], "A"); (["false"], "B")] 0)) /\
  exit_status
    (value (main_with DemoWorld demo_run demo_cwd
              [(["true"], "A"); (["false"], "B")] 0)) = 0%Z.
Proof.
  apply (summary_of_true_then_false DemoWorld demo_run demo_cwd 0).
  - intros w0. exists (mkCompleted 0 "" ""). split; reflexivity.
  - intros w0. exists (mkCompleted 1 "" ""). split; [reflexivity|].
    cbn. discriminate.
Defined.

(** C5, as stated, fails when the launch fails: for a binary that is not on
    the search path nothing of the form "Return code: <n>" is printed, so the
    full report is not there. *)
Lemma launch_failure_prints_no_exit_code :
  fst (demo_run ["no-such-binary-xyz"] 0)
    = LaunchError "[Errno 2] No such file or directory" /\
  ~ full_report ["no-such-binary-xyz"] "C"
      (emitted (run_command DemoWorld demo_run ["no-such-binary-xyz"] "C" 0)).
Proof.
  split; [reflexivity|].
  intros [_ [_ [[rc H] _]]].
  rewrite run_command_eq in H. cbn [emitted fst snd demo_run] in H.
  unfold report, report_tail in H. cbn [In] in H.
  repeat (destruct H as [H|H]; [simpl in H; discriminate H|]). exact H.
Qed.

(** C6, as stated, fails: [true] exits with 0 and [false] with 1, and yet
    the two lines that close the summary are not "PASS: A" and "FAIL: B"
    (each carries its mark in front); no line "PASS: A" is printed at all. *)
Lemma summary_lines_carry_a_mark :
  fst (demo_run ["true"] 0) = Completed (mkCompleted 0 "" "") /\
  fst (demo_run ["false"] 1) = Completed (mkCompleted 1 "" "") /\
  ~ ends_with_lines ["PASS: A"; "FAIL: B"]
      (emitted (main_with DemoWorld demo_run demo_cwd
                  [(["true"], "A"); (["false"], "B")] 0)) /\
  ~ In "PASS: A"
      (printed (emitted (main_with DemoWorld demo_run demo_cwd
                           [(["true"], "A"); (["false"], "B")] 0))).
Proof.
  split; [reflexivity | split; [reflexivity | split]].
  - intros [before H].
    apply (f_equal (@rev string)) in H. rewrite rev_app_distr in H.
    vm_compute in H. discriminate H.
  - intros H. vm_compute in H.
    repeat (destruct H as [H|H]; [discriminate H|]). exact H.
Qed.

Lemma return_code_line_identifies_exit_code_demo :
  demo_run ["grumble"] 0 = (Completed (mkCompleted 3 "out" "err"), 1) /\
  (In (Print ("Return code: " ++ str_of_int 3))
      (emitted (run_command DemoWorld demo_run ["grumble"] "Grumble" 0))
   <-> 3%Z = returncode (mkCompleted 3 "out" "err")).
Proof.
  split; [reflexivity|].
  apply (return_code_line_identifies_exit_code DemoWorld demo_run ["grumble"]
           "Grumble" 0 (mkCompleted 3 "out" "err") 1 3).
  reflexivity.
Defined.

Lemma summary_marks_each_command_demo :
  ends_with_lines
    [nl ++ "SUMMARY:"; str_mul "=" 40;
     "✓ PASS: A"; "✗ FAIL: B"; "✗ FAIL: C"; "✓ PASS: A"]
    (emitted (main_with DemoWorld demo_run demo_cwd
                [(["true"], "A"); (["false"], "B");
                 (["no-such-binary-xyz"], "C"); (["true"], "A")] 0)).
Proof.
  apply (summary_marks_each_command DemoWorld demo_run demo_cwd demo_ok
           [(["true"], "A"); (["false"], "B");
            (["no-such-binary-xyz"], "C"); (["true"], "A")] 0).
  intros cmd desc w0 Hin. rewrite run_command_eq. cbn [map fst In] in Hin.
  destruct Hin as [<-|[<-|[<-|[<-|[]]]]]; reflexivity.
Defined.

Lemma descriptions_are_display_only_demo :
  map fst [(["true"], "A"); (["grumble"], "B")]
    = map fst [(["true"], "first"); (["grumble"], "second")] /\
  execs (emitted (main_with DemoWorld demo_run demo_cwd
                    [(["true"], "A"); (["grumble"], "B")] 0))
    = execs (emitted (main_with DemoWorld demo_run demo_cwd
                        [(["true"], "first"); (["grumble"], "second")] 0)) /\
  after (main_with DemoWorld demo_run demo_cwd
           [(["true"], "A"); (["grumble"], "B")] 0)
    = after (main_with DemoWorld demo_run demo_cwd
               [(["true"], "first"); (["grumble"], "second")] 0) /\
  exists r1 r2,
    value (run_all DemoWorld demo_run [(["true"], "A"); (["grumble"], "B")]
             [] 0) = Ok r1 /\
    value (run_all DemoWorld demo_run
             [(["true"], "first"); (["grumble"], "second")] [] 0) = Ok r2 /\
    map snd r1 = map snd r2.
Proof.
  split; [reflexivity|].
  apply (descriptions_are_display_only DemoWorld demo_run demo_cwd
           [(["true"], "A"); (["grumble"], "B")]
           [(["true"], "first"); (["grumble"], "second")] 0).
  reflexivity.
Defined.

Lemma run_command_verdict_of_launched_child_demo :
  demo_spawn ["grumble"] 0
    = (Exited 3 (list_byte_of_string "out") (list_byte_of_string "err"), 1) /\
  exists b : bool,
    value (run_command DemoWorld (text_run demo_decode demo_spawn)
             ["grumble"] "Grumble" 0) = Ok b /\
    (b = true -> 3 = 0)%Z /\
    (3 <> 0 -> b = false)%Z /\
    (forall so se,
       demo_decode (list_byte_of_string "out") = inr so ->
       demo_decode (list_byte_of_string "err") = inr se ->
       (b = true <-> 3 = 0)%Z).
Proof.
  split; [reflexivity|].
  apply (run_command_verdict_of_launched_child DemoWorld demo_decode
           demo_spawn ["grumble"] "Grumble" 0 3
           (list_byte_of_string "out") (list_byte_of_string "err") 1).
  reflexivity.
Defined.

(** C1, as stated, fails for a child that is launched, exits with 0, and
    writes something that is not text: [subprocess.run] raises on decoding,
    the handler of [run_command] prints the error and [False] is returned,
    although the exit code is zero. *)
Lemma launched_exit_zero_yet_false :
  demo_spawn ["garble"] 0 = (Exited 0 [Byte.xff] [], 1) /\
  value (run_command DemoWorld (text_run demo_decode demo_spawn)
           ["garble"] "G" 0) = Ok false /\
  ~ verdict_is_exit_zero 0
      (value (run_command DemoWorld (text_run demo_decode demo_spawn)
                ["garble"] "G" 0)).
Proof.
  split; [reflexivity | split; [reflexivity|]].
  intros [b [Hb Hiff]]. vm_compute in Hb. injection Hb as <-.
  destruct Hiff as [_ Hz]. discriminate (Hz eq_refl).
Qed.

Lemma exit_code_is_on_the_third_line_demo :
  no_newline "Grumble" = true /\
  no_newline (join_args ["grumble"]) = true /\
  demo_run ["grumble"] 0 = (Completed (mkCompleted 3 "out" "err"), 1) /\
  line 0 (render (printed (emitted
            (run_command DemoWorld demo_run ["grumble"] "Grumble" 0))))
    = "Running: Grumble" /\
  line 1 (render (printed (emitted
            (run_command DemoWorld demo_run ["grumble"] "Grumble" 0))))
    = "Command: grumble" /\
  line 2 (render (printed (emitted
            (run_command DemoWorld demo_run ["grumble"] "Grumble" 0))))
    = "Return code: 3" /\
  forall rc,
    line 2 (render (printed (emitted
              (run_command DemoWorld demo_run ["grumble"] "Grumble" 0))))
      = "Return code: " ++ str_of_int rc ->
    rc = 3%Z.
Proof.
  split; [reflexivity | split; [reflexivity | split; [reflexivity|]]].
  apply (exit_code_is_on_the_third_line DemoWorld demo_run ["grumble"]
           "Grumble" 0 (mkCompleted 3 "out" "err") 1); reflexivity.
Defined.
